(** * TenantMiddleware: a shallow embedding of
    [multi_tenet/middleware/TenantMiddleware.py]

    The middleware owns a dictionary [connection_pools] from tenant
    identifiers to the objects returned by [psycopg2.connect], filled once
    in [__init__] from [settings.TENANT_DATABASES], and consulted by
    [__call__] on each request.

    Python objects are passed explicitly: a method takes [self] (and the
    request) and returns the possibly updated objects.  Everything outside
    the process (database servers, the network) is an abstract [World]
    that [psycopg2.connect] and the downstream handler thread through. *)

From stdpp Require Import gmap strings list fin_maps.
From Stdlib Require Import ZArith.

Local Open Scope string_scope.
Local Open Scope list_scope.

(** ** Python values and exceptions *)

(** The values a database configuration holds. *)
Inductive pyval :=
| VNone
| VInt (z : Z)
| VStr (s : string).

(** Instances of [Exception]: the [KeyError] of a failed subscript, and
    whatever an external call raises (class name and message). *)
Inductive Exception :=
| KeyError (key : string)
| Raised (cls msg : string).

(** Evaluation that may raise: [inl e] is [raise e]. *)
Definition raising (A : Type) : Type := (Exception + A)%type.

Definition bind_raising {A B} (m : raising A) (k : A -> raising B) : raising B :=
  match m with
  | inl e => inl e
  | inr a => k a
  end.

Notation "'let!' x ':=' m 'in' k" := (bind_raising m (fun x => k))
  (at level 10, x name, m at level 100, k at level 200).

(** [d[k]] on a dict. *)
Definition getitem (d : gmap string pyval) (k : string) : raising pyval :=
  match d !! k with
  | Some v => inr v
  | None => inl (KeyError k)
  end.

(** [threading.Lock()]: the middleware creates one and never acquires it. *)
Inductive Lock := Lock_unlocked | Lock_locked.

Definition threading_Lock : Lock := Lock_unlocked.

(** [django.http.HttpResponse]; [JsonResponse data] is the subclass the
    middleware builds itself. *)
Inductive HttpResponse :=
| JsonResponse (data : list (string * string))
| Response (status : Z) (content : string).

Section Middleware.

(** The state of everything outside the process. *)
Context {World : Type}.

(** The object a successful [psycopg2.connect] returns.  The call either
    raises or returns such an object, never [None]. *)
Context {connection : Type}.

(** [psycopg2.connect], given its positional and its keyword arguments. *)
Variable psycopg2_connect :
  list pyval -> list (string * pyval) -> World -> raising connection * World.

(** The process: the outside world, and what was printed. *)
Record Proc := {
  world : World;
  stdout : list Exception
}.

Definition set_world (w : World) (p : Proc) : Proc :=
  {| world := w; stdout := stdout p |}.

Definition print (e : Exception) (p : Proc) : Proc :=
  {| world := world p; stdout := stdout p ++ [e] |}.

(** [HttpRequest]: the headers, the method, path and body of the request,
    every further attribute of the object by its name, and the two
    attributes the middleware sets ([None] while the attribute is not
    set). *)
Record HttpRequest := {
  headers : gmap string string;
  method : string;
  path : string;
  body : string;
  other : gmap string pyval;
  tenant_id : option string;
  db_pool : option connection
}.

Definition setattr_tenant_id (request : HttpRequest) (v : string) : HttpRequest :=
  {| headers := headers request; method := method request; path := path request;
     body := body request; other := other request;
     tenant_id := Some v; db_pool := db_pool request |}.

Definition setattr_db_pool (request : HttpRequest) (v : connection) : HttpRequest :=
  {| headers := headers request; method := method request; path := path request;
     body := body request; other := other request;
     tenant_id := tenant_id request; db_pool := Some v |}.

(** The downstream handler: it may raise, mutate the request it is given
    and act on the world. *)
Definition handler : Type :=
  HttpRequest -> Proc -> raising HttpResponse * HttpRequest * Proc.

Record TenantMiddleware := {
  get_response : handler;
  connection_pools : gmap string connection;
  lock : Lock
}.

Definition set_connection_pools (self : TenantMiddleware)
    (m : gmap string connection) : TenantMiddleware :=
  {| get_response := get_response self; connection_pools := m; lock := lock self |}.

(** ** [_initialize_pools] *)

(** The keyword arguments of the call, evaluated left to right; a missing
    key raises [KeyError] before the call is made. *)
Definition connect_kwargs (db_config : gmap string pyval)
  : raising (list (string * pyval)) :=
  let! name := getitem db_config "NAME" in
  let! user := getitem db_config "USER" in
  let! password := getitem db_config "PASSWORD" in
  let! host := getitem db_config "HOST" in
  let! port := getitem db_config "PORT" in
  inr [("database", name); ("user", user); ("password", password);
       ("host", host); ("port", port)].

(** The right-hand side of the assignment in the [try] block. *)
Definition try_connect (db_config : gmap string pyval) (w : World)
  : raising connection * World :=
  match connect_kwargs db_config with
  | inl e => (inl e, w)
  | inr kwargs => psycopg2_connect [VInt 1; VInt 20] kwargs w
  end.

(** One iteration of the loop: the [try] with its [except Exception]. *)
Definition init_iteration (st : TenantMiddleware * Proc)
    (item : string * gmap string pyval) : TenantMiddleware * Proc :=
  let '(self, p) := st in
  let '(tenant_id, db_config) := item in
  match try_connect db_config (world p) with
  | (inr c, w) =>
      (set_connection_pools self (<[tenant_id := c]> (connection_pools self)),
       set_world w p)
  | (inl e, w) => (self, print e (set_world w p))
  end.

(** [TENANT_DATABASES] is [settings.TENANT_DATABASES.items()], in the
    dict's order. *)
Definition _initialize_pools (TENANT_DATABASES : list (string * gmap string pyval))
    (self : TenantMiddleware) (p : Proc) : TenantMiddleware * Proc :=
  fold_left init_iteration TENANT_DATABASES (self, p).

(** The object as [__init__] has set its attributes, before it calls
    [_initialize_pools]. *)
Definition init_attributes (get_response : handler) : TenantMiddleware :=
  {| get_response := get_response; connection_pools := ∅; lock := threading_Lock |}.

Definition __init__ (TENANT_DATABASES : list (string * gmap string pyval))
    (get_response : handler) (p : Proc) : TenantMiddleware * Proc :=
  _initialize_pools TENANT_DATABASES (init_attributes get_response) p.

(** ** [__call__] *)

Definition __call__ (self : TenantMiddleware) (request : HttpRequest) (p : Proc)
  : raising HttpResponse * TenantMiddleware * HttpRequest * Proc :=
  let tenant_id := default "tenant1" (headers request !! "x-org") in
  match connection_pools self !! tenant_id with
  | None => (inr (JsonResponse [("error", "Invalid tenant")]), self, request, p)
  | Some _ =>
      let request := setattr_tenant_id request tenant_id in
      match connection_pools self !! tenant_id with
      | None => (inl (KeyError tenant_id), self, request, p)
      | Some c =>
          let request := setattr_db_pool request c in
          let '(r, request, p) := get_response self request p in
          (r, self, request, p)
      end
  end.

(** ** Vocabulary of the statements *)

(** The response of the rejecting branch of [__call__]. *)
Definition invalid_tenant : HttpResponse :=
  JsonResponse [("error", "Invalid tenant")].

(** The request that carries tenant [t] and connection [h], field by
    field: [tenant_id] is [t], [db_pool] is [h], and everything else is
    as in [request]. *)
Definition attach (request : HttpRequest) (t : string) (h : connection) : HttpRequest :=
  {| headers := headers request; method := method request; path := path request;
     body := body request; other := other request;
     tenant_id := Some t; db_pool := Some h |}.

(** What [__call__] returns when all it does is call the handler on
    [request] in process state [p]. *)
Definition handed_over (self : TenantMiddleware) (request : HttpRequest) (p : Proc)
  : raising HttpResponse * TenantMiddleware * HttpRequest * Proc :=
  let '(r, request', p') := get_response self request p in
  (r, self, request', p').

(** Requests that name tenant [t] get [h] attached and go to the handler. *)
Definition resolves (self : TenantMiddleware) (t : string) (h : connection) : Prop :=
  forall request p, headers request !! "x-org" = Some t ->
    __call__ self request p = handed_over self (attach request t h) p.

(** Requests that name tenant [t] are answered with [invalid_tenant],
    nothing else happening. *)
Definition rejects (self : TenantMiddleware) (t : string) : Prop :=
  forall request p, headers request !! "x-org" = Some t ->
    __call__ self request p = (inr invalid_tenant, self, request, p).

(** The components of what [__call__] returns. *)
Definition call_result (x : raising HttpResponse * TenantMiddleware * HttpRequest * Proc)
  : raising HttpResponse := x.1.1.1.
Definition call_self (x : raising HttpResponse * TenantMiddleware * HttpRequest * Proc)
  : TenantMiddleware := x.1.1.2.
Definition call_request (x : raising HttpResponse * TenantMiddleware * HttpRequest * Proc)
  : HttpRequest := x.1.2.
Definition call_proc (x : raising HttpResponse * TenantMiddleware * HttpRequest * Proc)
  : Proc := x.2.

(** How the [try] block ends in the iteration of tenant [t], when the loop
    over [items] starts from [self] and [p]: [None] when the loop has no
    iteration for [t].  With the keys of a dict there is at most one. *)
Fixpoint construction_outcome (items : list (string * gmap string pyval))
    (self : TenantMiddleware) (p : Proc) (t : string) : option (raising connection) :=
  match items with
  | [] => None
  | item :: rest =>
      if decide (item.1 = t) then Some (try_connect item.2 (world p)).1
      else
        let st := init_iteration (self, p) item in
        construction_outcome rest st.1 st.2 t
  end.

(** How [__init__] ends the construction for tenant [t]. *)
Definition init_outcome (TENANT_DATABASES : list (string * gmap string pyval))
    (get_response : handler) (p : Proc) (t : string) : option (raising connection) :=
  construction_outcome TENANT_DATABASES (init_attributes get_response) p t.

(** Every entry of the mapping of [self] is the connection that the
    construction for its tenant returned in [__init__]. *)
Definition fully_constructed (TENANT_DATABASES : list (string * gmap string pyval))
    (get_response : handler) (p : Proc) (self : TenantMiddleware) : Prop :=
  forall t h, connection_pools self !! t = Some h ->
    init_outcome TENANT_DATABASES get_response p t = Some (inr h).

(** The same middleware in front of another handler. *)
Definition with_handler (self : TenantMiddleware) (g : handler) : TenantMiddleware :=
  {| get_response := g; connection_pools := connection_pools self; lock := lock self |}.

(** The middleware objects seen while requests are served, one call of
    [__call__] after the other, from [self0] on; between two calls the
    process state is arbitrary. *)
Inductive serving (self0 : TenantMiddleware) : TenantMiddleware -> Prop :=
| serving_start : serving self0 self0
| serving_call self request p :
    serving self0 self ->
    serving self0 (call_self (__call__ self request p)).

(** The exception names tenant [t]: it is the [KeyError] of [t], or its
    message contains [t]. *)
Definition names_tenant (e : Exception) (t : string) : bool :=
  match e with
  | KeyError key => bool_decide (key = t)
  | Raised _ msg => bool_decide (is_Some (String.index 0 t msg))
  end.

(** The outcome for an unknown tenant in the specification's words: an
    error value that names the tenant, and no response. *)
Definition bare_tenant_error (t : string) (r : raising HttpResponse) : Prop :=
  exists e, r = inl e /\ names_tenant e t = true.

End Middleware.

Arguments Proc : clear implicits.
Arguments HttpRequest : clear implicits.
Arguments handler : clear implicits.
Arguments TenantMiddleware : clear implicits.

(** ** A concrete world

    The world is the list of what was asked of the database layer; a
    connection object is the position of its [Connect] event.  A host
    named "unreachable" refuses the connection. *)
Module Example.

Inductive event :=
| Connect (args : list pyval) (kwargs : list (string * pyval))
| Query (c : nat).

Definition World : Type := list event.
Definition connection : Type := nat.

Definition host_of (kwargs : list (string * pyval)) : option pyval :=
  snd <$> List.find (fun kv => bool_decide (kv.1 = "host")) kwargs.

Definition psycopg2_connect (args : list pyval) (kwargs : list (string * pyval))
    (w : World) : raising connection * World :=
  match host_of kwargs with
  | Some (VStr "unreachable") =>
      (inl (Raised "OperationalError" "could not connect to server"),
       w ++ [Connect args kwargs])
  | _ => (inr (length w), w ++ [Connect args kwargs])
  end.

Definition db_config (name host : string) : gmap string pyval :=
  <["NAME" := VStr name]> (<["USER" := VStr "app"]> (<["PASSWORD" := VStr "secret"]>
  (<["HOST" := VStr host]> (<["PORT" := VInt 5432]> ∅)))).

(** tenant1 is reachable, tenant2 is not, tenant3 lacks its "HOST". *)
Definition TENANT_DATABASES : list (string * gmap string pyval) :=
  [("tenant1", db_config "db1" "localhost");
   ("tenant2", db_config "db2" "unreachable");
   ("tenant3", delete "HOST" (db_config "db3" "localhost"))].

(** A view that runs one query on the connection it was given. *)
Definition view : handler World connection :=
  fun request p =>
    match db_pool request, tenant_id request with
    | Some c, Some t => (inr (Response 200 t), request, set_world (world p ++ [Query c]) p)
    | _, _ => (inl (Raised "AttributeError" "db_pool"), request, p)
    end.

Definition p0 : Proc World := {| world := []; stdout := [] |}.

Definition middleware : TenantMiddleware World connection :=
  (__init__ psycopg2_connect TENANT_DATABASES view p0).1.

Definition p1 : Proc World :=
  (__init__ psycopg2_connect TENANT_DATABASES view p0).2.

Definition request_for (t : string) : HttpRequest connection :=
  {| headers := {["x-org" := t]}; method := "GET"; path := "/orders"; body := "";
     other := ∅; tenant_id := None; db_pool := None |}.

Definition request_plain : HttpRequest connection :=
  {| headers := ∅; method := "GET"; path := "/orders"; body := "";
     other := ∅; tenant_id := None; db_pool := None |}.

(** A configuration of one tenant only. *)
Definition ONE_TENANT : list (string * gmap string pyval) :=
  [("tenant1", db_config "db1" "localhost")].

(** The unreachable tenant2 comes first. *)
Definition FAILING_FIRST : list (string * gmap string pyval) :=
  [("tenant2", db_config "db2" "unreachable");
   ("tenant1", db_config "db1" "localhost")].

(** The middleware of an empty configuration. *)
Definition empty_middleware : TenantMiddleware World connection :=
  (__init__ psycopg2_connect [] view p0).1.

End Example.

(** The keys [_initialize_pools] reads from a tenant's configuration, in
    the order in which the call evaluates them. *)
Definition config_keys : list string :=
  ["NAME"; "USER"; "PASSWORD"; "HOST"; "PORT"].

(** More of the concrete world: configurations in which no construction
    returns, a view that raises, and a request that arrives with the two
    attributes already set. *)
Module Example2.

(** tenant2 is unreachable, tenant3 lacks its "HOST". *)
Definition ALL_FAILING : list (string * gmap string pyval) :=
  [("tenant2", Example.db_config "db2" "unreachable");
   ("tenant3", delete "HOST" (Example.db_config "db3" "localhost"))].

(** A configuration with entries that the middleware does not read. *)
Definition db_config_with_options : gmap string pyval :=
  <["ENGINE" := VStr "django.db.backends.postgresql"]>
    (<["CONN_MAX_AGE" := VInt 60]> (Example.db_config "db1" "localhost")).

(** A view that runs its query and then raises. *)
Definition broken_view : handler Example.World Example.connection :=
  fun request p =>
    match db_pool request with
    | Some c =>
        (inl (Raised "ValueError" "view failed"), request,
         set_world (world p ++ [Example.Query c]) p)
    | None => (inl (Raised "AttributeError" "db_pool"), request, p)
    end.

Definition broken_middleware : TenantMiddleware Example.World Example.connection :=
  (__init__ Example.psycopg2_connect Example.TENANT_DATABASES broken_view Example.p0).1.

(** The configuration of a second run of the loop: tenant1 has become
    unreachable, tenant2 reachable. *)
Definition SECOND_RUN : list (string * gmap string pyval) :=
  [("tenant1", Example.db_config "db1" "unreachable");
   ("tenant2", Example.db_config "db2" "localhost")].

(** A request for tenant1 that already carries attributes of its own. *)
Definition request_spoofed : HttpRequest Example.connection :=
  {| headers := {["x-org" := "tenant1"]}; method := "GET"; path := "/orders"; body := "";
     other := ∅; tenant_id := Some "tenant2"; db_pool := Some 7 |}.

End Example2.

Example ex_mapping :
  map_to_list (connection_pools Example.middleware) = [("tenant1", 0)].
Proof. vm_compute. reflexivity. Qed.

Example ex_stdout :
  stdout Example.p1 =
    [Raised "OperationalError" "could not connect to server"; KeyError "HOST"].
Proof. vm_compute. reflexivity. Qed.

Example ex_call_ok :
  call_result (__call__ Example.middleware (Example.request_for "tenant1") Example.p1)
  = inr (Response 200 "tenant1").
Proof. vm_compute. reflexivity. Qed.

Example ex_call_bad :
  call_result (__call__ Example.middleware (Example.request_for "tenant2") Example.p1)
  = inr invalid_tenant.
Proof. vm_compute. reflexivity. Qed.

(** * Properties *)

Section Facts.

Context {World connection : Type}.

Variable psycopg2_connect :
  list pyval -> list (string * pyval) -> World -> raising connection * World.

Implicit Types (self : TenantMiddleware World connection) (p : Proc World).
Implicit Types (request : HttpRequest connection) (t : string) (h : connection).
Implicit Types (items : list (string * gmap string pyval)).

Local Abbreviation initialize := (_initialize_pools psycopg2_connect).
Local Abbreviation iteration := (init_iteration psycopg2_connect).
Local Abbreviation outcome := (construction_outcome psycopg2_connect).

(** ** The loop *)

Lemma initialize_pools_cons item items self p :
  initialize (item :: items) self p =
  initialize items (iteration (self, p) item).1 (iteration (self, p) item).2.
Proof.
  unfold _initialize_pools. cbn [fold_left].
  by rewrite <- surjective_pairing.
Qed.

Lemma initialize_pools_app items1 items2 self p :
  initialize (items1 ++ items2) self p =
  initialize items2 (initialize items1 self p).1 (initialize items1 self p).2.
Proof.
  unfold _initialize_pools. rewrite fold_left_app.
  by rewrite <- surjective_pairing.
Qed.

(** The call a complete configuration leads to: [psycopg2.connect] with
    1 and 20 as its two positional arguments. *)
Lemma try_connect_complete db_config name user password host port w :
  db_config !! "NAME" = Some name ->
  db_config !! "USER" = Some user ->
  db_config !! "PASSWORD" = Some password ->
  db_config !! "HOST" = Some host ->
  db_config !! "PORT" = Some port ->
  try_connect psycopg2_connect db_config w =
  psycopg2_connect [VInt 1; VInt 20]
    [("database", name); ("user", user); ("password", password);
     ("host", host); ("port", port)] w.
Proof.
  intros Hname Huser Hpassword Hhost Hport.
  unfold try_connect, connect_kwargs, getitem.
  by rewrite Hname, Huser, Hpassword, Hhost, Hport.
Qed.

(** A configuration without its "NAME" raises before any call is made. *)
Lemma try_connect_no_name db_config w :
  db_config !! "NAME" = None ->
  try_connect psycopg2_connect db_config w = (inl (KeyError "NAME"), w).
Proof.
  intros Hname. unfold try_connect, connect_kwargs, getitem. by rewrite Hname.
Qed.

(** An iteration leaves the handler and the lock of the object alone. *)
Lemma init_iteration_frame item self p :
  get_response (iteration (self, p) item).1 = get_response self /\
  lock (iteration (self, p) item).1 = lock self.
Proof.
  destruct item as [k db_config]. simpl.
  by destruct (try_connect _ _ _) as [[e|c] w].
Qed.

(** An iteration touches no key but its own. *)
Lemma init_iteration_other item self p t :
  item.1 ≠ t ->
  connection_pools (iteration (self, p) item).1 !! t = connection_pools self !! t.
Proof.
  destruct item as [k db_config]. simpl. intros Hne.
  destruct (try_connect _ _ _) as [[e|c] w]; simpl; [done|].
  by rewrite lookup_insert_ne.
Qed.

(** Its own key is bound exactly when the construction returned. *)
Lemma init_iteration_own item self p :
  connection_pools (iteration (self, p) item).1 !! item.1 =
  match (try_connect psycopg2_connect item.2 (world p)).1 with
  | inr c => Some c
  | inl _ => connection_pools self !! item.1
  end.
Proof.
  destruct item as [k db_config]. simpl.
  destruct (try_connect _ _ _) as [[e|c] w]; simpl; [done|].
  by rewrite lookup_insert_eq.
Qed.

Lemma initialize_pools_lookup_notin items : forall self p t,
  t ∉ items.*1 ->
  connection_pools (initialize items self p).1 !! t = connection_pools self !! t.
Proof.
  induction items as [|item items IH]; intros self p t Hnotin; [done|].
  rewrite initialize_pools_cons.
  rewrite fmap_cons in Hnotin. apply not_elem_of_cons in Hnotin as [Hne Hnotin].
  rewrite IH by done. apply init_iteration_other. congruence.
Qed.

(** The mapping after the loop, key by key: the connection of the
    iteration for [t] when that construction returned one, and what was
    there before the loop otherwise. *)
Lemma initialize_pools_lookup items : forall self p t,
  NoDup items.*1 ->
  connection_pools (initialize items self p).1 !! t =
  match outcome items self p t with
  | Some (inr c) => Some c
  | _ => connection_pools self !! t
  end.
Proof.
  induction items as [|item items IH]; intros self p t Hnd; [done|].
  rewrite fmap_cons in Hnd. apply NoDup_cons in Hnd as [Hfresh Hnd].
  rewrite initialize_pools_cons. cbn [construction_outcome].
  destruct (decide (item.1 = t)) as [<-|Hne].
  - rewrite initialize_pools_lookup_notin by done.
    rewrite init_iteration_own.
    by destruct (try_connect _ _ _).1.
  - rewrite IH by done.
    rewrite init_iteration_other by done.
    done.
Qed.

(** A tenant has an iteration exactly when it is a key. *)
Lemma construction_outcome_is_Some items : forall self p t,
  is_Some (outcome items self p t) <-> t ∈ items.*1.
Proof.
  induction items as [|item items IH]; intros self p t; cbn [construction_outcome].
  - split; [by intros [? ?]|]. by intros ?%elem_of_nil.
  - rewrite fmap_cons, elem_of_cons. destruct (decide (item.1 = t)) as [<-|Hne].
    + split; [by left|]. by eauto.
    + rewrite IH. split; [by right|]. by intros [?|?]; [congruence|].
Qed.

(** The outcome for a tenant behind a prefix that does not have it. *)
Lemma construction_outcome_app items1 items2 self p t :
  t ∉ items1.*1 ->
  outcome (items1 ++ items2) self p t =
  outcome items2 (initialize items1 self p).1 (initialize items1 self p).2 t.
Proof.
  revert self p. induction items1 as [|item items1 IH]; intros self p Hnotin; [done|].
  rewrite fmap_cons in Hnotin. apply not_elem_of_cons in Hnotin as [Hne Hnotin].
  rewrite initialize_pools_cons. cbn [app construction_outcome].
  destruct (decide (item.1 = t)) as [?|_]; [congruence|].
  by apply IH.
Qed.

Lemma initialize_pools_frame items : forall self p,
  get_response (initialize items self p).1 = get_response self /\
  lock (initialize items self p).1 = lock self.
Proof.
  induction items as [|item items IH]; intros self p; [done|].
  rewrite initialize_pools_cons.
  destruct (IH (iteration (self, p) item).1 (iteration (self, p) item).2) as [-> ->].
  apply init_iteration_frame.
Qed.

(** ** The call *)

Lemma call_absent self request p :
  connection_pools self !! default "tenant1" (headers request !! "x-org") = None ->
  __call__ self request p = (inr invalid_tenant, self, request, p).
Proof. unfold __call__. by intros ->. Qed.

Lemma call_present self request p h :
  connection_pools self !! default "tenant1" (headers request !! "x-org") = Some h ->
  __call__ self request p =
  handed_over self (attach request (default "tenant1" (headers request !! "x-org")) h) p.
Proof. unfold __call__, handed_over, attach. by intros ->. Qed.

Lemma call_self_unchanged self request p :
  call_self (__call__ self request p) = self.
Proof.
  unfold __call__, call_self.
  destruct (connection_pools self !! _) as [c|]; [|done].
  by destruct (get_response self _ p) as [[r request'] p'].
Qed.

Lemma lookup_resolves self t h :
  connection_pools self !! t = Some h -> resolves self t h.
Proof.
  intros Hlookup request p Hheader.
  rewrite (call_present _ _ _ h); by rewrite Hheader.
Qed.

Lemma lookup_rejects self t :
  connection_pools self !! t = None -> rejects self t.
Proof.
  intros Hlookup request p Hheader.
  apply call_absent. by rewrite Hheader.
Qed.

(** The mapping [__init__] builds, key by key. *)
Lemma init_lookup TENANT_DATABASES get_response p0 t :
  NoDup TENANT_DATABASES.*1 ->
  connection_pools (__init__ psycopg2_connect TENANT_DATABASES get_response p0).1 !! t =
  match init_outcome psycopg2_connect TENANT_DATABASES get_response p0 t with
  | Some (inr c) => Some c
  | _ => None
  end.
Proof.
  intros Hnd. unfold __init__, init_outcome.
  rewrite initialize_pools_lookup by done.
  by destruct (outcome _ _ _ _) as [[e|c]|].
Qed.

(** ** The properties of the specification *)

(** C1, as the code has it. After [__init__] on the items of a dict of
    tenant configurations, for a request that names tenant [t]:
    - when the construction for [t] returned [h], [h] is the entry of [t]
      and the handler given to [__init__] is called on the request with
      [tenant_id] set to [t] and [db_pool] set to [h], all else of the
      request as it came, in the process state of the entry; [__call__]
      returns what the handler returns;
    - when that construction raised, or [t] has no configuration, [t] is
      not in the mapping and [__call__] returns, as an ordinary result,
      the response [{'error': 'Invalid tenant'}], with the middleware,
      the request and the process state as they were. *)
Theorem init_then_call TENANT_DATABASES get_response p0 t :
  NoDup TENANT_DATABASES.*1 ->
  let self := (__init__ psycopg2_connect TENANT_DATABASES get_response p0).1 in
  match init_outcome psycopg2_connect TENANT_DATABASES get_response p0 t with
  | Some (inr h) =>
      connection_pools self !! t = Some h /\
      (forall request p, headers request !! "x-org" = Some t ->
         __call__ self request p =
         (let '(r, request', p') :=
            get_response
              {| headers := headers request; method := method request;
                 path := path request; body := body request; other := other request;
                 tenant_id := Some t; db_pool := Some h |} p in
          (r, self, request', p')))
  | Some (inl _) | None =>
      connection_pools self !! t = None /\
      (forall request p, headers request !! "x-org" = Some t ->
         __call__ self request p =
         (inr (JsonResponse [("error", "Invalid tenant")]), self, request, p))
  end.
Proof.
  intros Hnd self.
  pose proof (init_lookup TENANT_DATABASES get_response p0 t Hnd) as Hlookup.
  fold self in Hlookup.
  destruct (initialize_pools_frame TENANT_DATABASES (init_attributes get_response) p0)
    as [Hhandler _].
  destruct (init_outcome _ _ _ _ _) as [[e|h]|]; split; try done.
  - by apply lookup_rejects.
  - intros request p Hheader.
    rewrite (lookup_resolves self t h Hlookup request p Hheader).
    unfold handed_over, attach. unfold self at 1, __init__. by rewrite Hhandler.
  - by apply lookup_rejects.
Qed.

(** C2, as the code has it. A request without the "x-org" header is
    treated as naming "tenant1": when "tenant1" is in the mapping with
    connection [h], the handler is called on the request with [tenant_id]
    set to "tenant1" and [db_pool] set to [h], all else of the request as
    it came; otherwise [__call__] returns, as an ordinary result, the
    response [{'error': 'Invalid tenant'}]. *)
Theorem call_without_header self request p :
  headers request !! "x-org" = None ->
  match connection_pools self !! "tenant1" with
  | Some h =>
      __call__ self request p =
      (let '(r, request', p') :=
         get_response self
           {| headers := headers request; method := method request;
              path := path request; body := body request; other := other request;
              tenant_id := Some "tenant1"; db_pool := Some h |} p in
       (r, self, request', p'))
  | None =>
      __call__ self request p =
      (inr (JsonResponse [("error", "Invalid tenant")]), self, request, p)
  end.
Proof.
  intros Hheader.
  destruct (connection_pools self !! "tenant1") as [h|] eqn:Hlookup.
  - rewrite (call_present _ _ _ h); by rewrite Hheader.
  - apply call_absent. by rewrite Hheader.
Qed.

(** C3. When the construction for tenant [t] raises, the loop goes on with
    the tenants after it from the state the failure left (the exception
    printed, nothing stored): each of them has its construction attempted,
    [t] is not in the resulting mapping, and every tenant whose
    construction returned a connection is in the mapping and resolves. *)
Theorem failure_does_not_abort pre t db_config post get_response p0 e w :
  NoDup (pre ++ (t, db_config) :: post).*1 ->
  try_connect psycopg2_connect db_config
    (world (__init__ psycopg2_connect pre get_response p0).2) = (inl e, w) ->
  let before := __init__ psycopg2_connect pre get_response p0 in
  let TENANT_DATABASES := pre ++ (t, db_config) :: post in
  let final := __init__ psycopg2_connect TENANT_DATABASES get_response p0 in
  final = _initialize_pools psycopg2_connect post before.1 (print e (set_world w before.2)) /\
  (forall t', t' ∈ post.*1 ->
     is_Some (init_outcome psycopg2_connect TENANT_DATABASES get_response p0 t')) /\
  connection_pools final.1 !! t = None /\
  (forall t' h',
     init_outcome psycopg2_connect TENANT_DATABASES get_response p0 t' = Some (inr h') ->
     t' <> t /\ connection_pools final.1 !! t' = Some h' /\ resolves final.1 t' h').
Proof.
  intros Hnd Htry before TENANT_DATABASES final.
  assert (Hpre : t ∉ pre.*1).
  { rewrite fmap_app, fmap_cons in Hnd. apply NoDup_app in Hnd as (_ & Hdisj & _).
    intros Hin. apply (Hdisj _ Hin). by left. }
  assert (Houtcome :
    init_outcome psycopg2_connect TENANT_DATABASES get_response p0 t = Some (inl e)).
  { unfold init_outcome, TENANT_DATABASES.
    rewrite construction_outcome_app by done. cbn [construction_outcome].
    rewrite decide_True by done. cbn [snd].
    unfold __init__ in Htry. by rewrite Htry. }
  split; [|split; [|split]].
  - unfold final, TENANT_DATABASES, before, __init__.
    rewrite initialize_pools_app, initialize_pools_cons.
    unfold __init__ in Htry.
    cbn [init_iteration]. by rewrite Htry.
  - intros t' Hin. apply construction_outcome_is_Some.
    unfold TENANT_DATABASES. rewrite fmap_app, fmap_cons.
    apply elem_of_app. right. by right.
  - unfold final. rewrite init_lookup by done. by rewrite Houtcome.
  - intros t' h' Hsuccess.
    assert (Hlookup : connection_pools final.1 !! t' = Some h').
    { unfold final. rewrite init_lookup by done. by rewrite Hsuccess. }
    split; [|split; [done|by apply lookup_resolves]].
    intros ->. congruence.
Qed.

(** C4, as the code has it. For a tenant identifier that is not in the
    mapping, [__call__] itself builds the answer: the JSON body
    [{'error': 'Invalid tenant'}], the same whatever the identifier is. *)
Theorem unknown_tenant_json_response self request p :
  connection_pools self !! default "tenant1" (headers request !! "x-org") = None ->
  call_result (__call__ self request p) = inr (JsonResponse [("error", "Invalid tenant")]).
Proof. intros Habsent. by rewrite call_absent. Qed.

(** C6. The mapping [__init__] builds is fully constructed: the value of
    every key is the connection object that the construction for that
    tenant returned (never a placeholder for a construction that raised),
    and [__call__] keeps it so. *)
Theorem mapping_fully_constructed TENANT_DATABASES get_response p0 :
  NoDup TENANT_DATABASES.*1 ->
  fully_constructed psycopg2_connect TENANT_DATABASES get_response p0
    (__init__ psycopg2_connect TENANT_DATABASES get_response p0).1 /\
  (forall self request p,
     fully_constructed psycopg2_connect TENANT_DATABASES get_response p0 self ->
     fully_constructed psycopg2_connect TENANT_DATABASES get_response p0
       (call_self (__call__ self request p))).
Proof.
  intros Hnd. split.
  - intros t h. rewrite init_lookup by done.
    destruct (init_outcome _ _ _ _ _) as [[e|c]|]; [done| |done].
    by intros [= ->].
  - intros self request p Hinv. by rewrite call_self_unchanged.
Qed.

(** C7. [__call__] only looks the tenant up. The middleware object comes
    back as it was, and the call either answers "Invalid tenant" with the
    request and the process state untouched, or hands the request, with
    the tenant and its connection attached, to the handler in the very
    process state it was entered with: between entry and the handler
    nothing acts on the world. *)
Theorem call_only_locates self request p :
  call_self (__call__ self request p) = self /\
  (__call__ self request p = (inr invalid_tenant, self, request, p) \/
   exists t h,
     connection_pools self !! t = Some h /\
     __call__ self request p = handed_over self (attach request t h) p).
Proof.
  split; [apply call_self_unchanged|].
  destruct (connection_pools self !! default "tenant1" (headers request !! "x-org"))
    as [h|] eqn:Hlookup.
  - right. eexists _, h. split; [exact Hlookup|]. by apply call_present.
  - left. by apply call_absent.
Qed.

(** C9. When the identifier a request resolves to is not in the mapping,
    [__call__] returns the error response with the middleware, the request
    (no [tenant_id], no [db_pool] attached) and the process state as they
    were, and this whatever the downstream handler is: it is not called. *)
Theorem call_absent_no_effect self request p :
  connection_pools self !! default "tenant1" (headers request !! "x-org") = None ->
  __call__ self request p = (inr invalid_tenant, self, request, p) /\
  (forall g, __call__ (with_handler self g) request p =
             (inr invalid_tenant, with_handler self g, request, p)).
Proof.
  intros Habsent. split; [by apply call_absent|].
  intros g. by apply call_absent.
Qed.

(** C10. However many requests are served after [__init__], the middleware
    object, and with it the [connection_pools] mapping, is the one
    [__init__] returned. *)
Theorem mapping_fixed_after_init TENANT_DATABASES get_response p0 self :
  serving (__init__ psycopg2_connect TENANT_DATABASES get_response p0).1 self ->
  self = (__init__ psycopg2_connect TENANT_DATABASES get_response p0).1 /\
  connection_pools self =
  connection_pools (__init__ psycopg2_connect TENANT_DATABASES get_response p0).1.
Proof.
  induction 1 as [|self request p Hserving [IHself IHpools]].
  - done.
  - rewrite call_self_unchanged. done.
Qed.

End Facts.

(** ** The properties on the concrete world *)

Lemma example_keys_NoDup : NoDup Example.TENANT_DATABASES.*1.
Proof. apply (bool_decide_unpack _). vm_compute. exact I. Defined.

Lemma failing_first_keys_NoDup : NoDup Example.FAILING_FIRST.*1.
Proof. apply (bool_decide_unpack _). vm_compute. exact I. Defined.

(** C1 on the example: the request for tenant1 reaches the view with
    connection 0, and the view runs its query on it; the requests for
    tenant2 (unreachable), tenant3 (no "HOST") and a tenant that was
    never configured get the JSON body. *)
Lemma init_then_call_witness :
  NoDup Example.TENANT_DATABASES.*1 /\
  (connection_pools Example.middleware !! "tenant1" = Some 0 /\
   __call__ Example.middleware (Example.request_for "tenant1") Example.p1 =
     (inr (Response 200 "tenant1"), Example.middleware,
      {| headers := {["x-org" := "tenant1"]}; method := "GET"; path := "/orders";
         body := ""; other := ∅; tenant_id := Some "tenant1"; db_pool := Some 0 |},
      set_world (world Example.p1 ++ [Example.Query 0]) Example.p1)) /\
  (connection_pools Example.middleware !! "tenant2" = None /\
   __call__ Example.middleware (Example.request_for "tenant2") Example.p1 =
     (inr (JsonResponse [("error", "Invalid tenant")]), Example.middleware,
      Example.request_for "tenant2", Example.p1)) /\
  (connection_pools Example.middleware !! "tenant3" = None /\
   __call__ Example.middleware (Example.request_for "tenant3") Example.p1 =
     (inr (JsonResponse [("error", "Invalid tenant")]), Example.middleware,
      Example.request_for "tenant3", Example.p1)) /\
  (connection_pools Example.middleware !! "tenant9" = None /\
   __call__ Example.middleware (Example.request_for "tenant9") Example.p1 =
     (inr (JsonResponse [("error", "Invalid tenant")]), Example.middleware,
      Example.request_for "tenant9", Example.p1)).
Proof.
  split; [exact example_keys_NoDup|].
  split; [|split; [|split]].
  - split.
    + exact (proj1 (init_then_call Example.psycopg2_connect Example.TENANT_DATABASES
                      Example.view Example.p0 "tenant1" example_keys_NoDup)).
    + exact (proj2 (init_then_call Example.psycopg2_connect Example.TENANT_DATABASES
                      Example.view Example.p0 "tenant1" example_keys_NoDup)
               (Example.request_for "tenant1") Example.p1 eq_refl).
  - split.
    + exact (proj1 (init_then_call Example.psycopg2_connect Example.TENANT_DATABASES
                      Example.view Example.p0 "tenant2" example_keys_NoDup)).
    + exact (proj2 (init_then_call Example.psycopg2_connect Example.TENANT_DATABASES
                      Example.view Example.p0 "tenant2" example_keys_NoDup)
               (Example.request_for "tenant2") Example.p1 eq_refl).
  - split.
    + exact (proj1 (init_then_call Example.psycopg2_connect Example.TENANT_DATABASES
                      Example.view Example.p0 "tenant3" example_keys_NoDup)).
    + exact (proj2 (init_then_call Example.psycopg2_connect Example.TENANT_DATABASES
                      Example.view Example.p0 "tenant3" example_keys_NoDup)
               (Example.request_for "tenant3") Example.p1 eq_refl).
  - split.
    + exact (proj1 (init_then_call Example.psycopg2_connect Example.TENANT_DATABASES
                      Example.view Example.p0 "tenant9" example_keys_NoDup)).
    + exact (proj2 (init_then_call Example.psycopg2_connect Example.TENANT_DATABASES
                      Example.view Example.p0 "tenant9" example_keys_NoDup)
               (Example.request_for "tenant9") Example.p1 eq_refl).
Defined.

(** C1 as stated does not hold: tenant2 is configured and its
    construction raised, and the request for it does not end in an error
    value naming "tenant2"; it returns a response. *)
Lemma failed_tenant_not_bare_error :
  init_outcome Example.psycopg2_connect Example.TENANT_DATABASES Example.view Example.p0
    "tenant2" = Some (inl (Raised "OperationalError" "could not connect to server")) /\
  ~ bare_tenant_error "tenant2"
      (call_result (__call__ Example.middleware (Example.request_for "tenant2") Example.p1)).
Proof.
  split; [by vm_compute|].
  intros (e & Heq & _). vm_compute in Heq. discriminate Heq.
Qed.

(** C2 on the example: without the header the view gets "tenant1" and
    connection 0 where tenant1 is in the mapping, and the request gets
    the JSON body where the mapping is empty. *)
Lemma call_without_header_witness :
  headers Example.request_plain !! "x-org" = None /\
  __call__ Example.middleware Example.request_plain Example.p1 =
    (inr (Response 200 "tenant1"), Example.middleware,
     {| headers := ∅; method := "GET"; path := "/orders"; body := ""; other := ∅;
        tenant_id := Some "tenant1"; db_pool := Some 0 |},
     set_world (world Example.p1 ++ [Example.Query 0]) Example.p1) /\
  __call__ Example.empty_middleware Example.request_plain Example.p0 =
    (inr (JsonResponse [("error", "Invalid tenant")]), Example.empty_middleware,
     Example.request_plain, Example.p0).
Proof.
  split; [reflexivity|]. split.
  - exact (call_without_header Example.middleware Example.request_plain Example.p1 eq_refl).
  - exact (call_without_header Example.empty_middleware Example.request_plain Example.p0
             eq_refl).
Defined.

(** C2 as stated does not hold: without the header and without "tenant1"
    in the mapping, the call does not end in an error value naming
    "tenant1"; it returns a response. *)
Lemma default_tenant_not_bare_error :
  headers Example.request_plain !! "x-org" = None /\
  connection_pools Example.empty_middleware !! "tenant1" = None /\
  ~ bare_tenant_error "tenant1"
      (call_result (__call__ Example.empty_middleware Example.request_plain Example.p0)).
Proof.
  split; [reflexivity|]. split; [reflexivity|].
  intros (e & Heq & _). vm_compute in Heq. discriminate Heq.
Qed.

(** C3 on the example: tenant2 comes first and is unreachable; tenant1
    after it is still connected (its connection is the second event of
    the world) and resolves. *)
Lemma failure_does_not_abort_witness :
  NoDup Example.FAILING_FIRST.*1 /\
  (let self :=
     (__init__ Example.psycopg2_connect Example.FAILING_FIRST Example.view Example.p0).1 in
   connection_pools self !! "tenant2" = None /\
   is_Some (init_outcome Example.psycopg2_connect Example.FAILING_FIRST
              Example.view Example.p0 "tenant1") /\
   connection_pools self !! "tenant1" = Some 1 /\
   resolves self "tenant1" 1).
Proof.
  split; [exact failing_first_keys_NoDup|].
  destruct (failure_does_not_abort Example.psycopg2_connect
              [] "tenant2" (Example.db_config "db2" "unreachable")
              [("tenant1", Example.db_config "db1" "localhost")]
              Example.view Example.p0
              (Raised "OperationalError" "could not connect to server")
              [Example.Connect [VInt 1; VInt 20]
                 [("database", VStr "db2"); ("user", VStr "app");
                  ("password", VStr "secret"); ("host", VStr "unreachable");
                  ("port", VInt 5432)]]
              failing_first_keys_NoDup eq_refl)
    as (_ & Hattempted & Habsent & Hothers).
  split; [exact Habsent|].
  split; [apply Hattempted; vm_compute; by left|].
  exact (proj2 (Hothers "tenant1" 1 eq_refl)).
Defined.

(** C4 on the example: an unknown tenant gets the JSON body. *)
Lemma unknown_tenant_json_response_witness :
  connection_pools Example.middleware !! "ghost" = None /\
  call_result (__call__ Example.middleware (Example.request_for "ghost") Example.p1)
  = inr (JsonResponse [("error", "Invalid tenant")]).
Proof.
  split; [reflexivity|].
  exact (unknown_tenant_json_response Example.middleware (Example.request_for "ghost")
           Example.p1 eq_refl).
Defined.

(** C4 as stated does not hold: for the unknown tenant "ghost" the call
    does not end in an error value naming "ghost"; it returns a response
    that the middleware built. *)
Lemma unknown_tenant_not_bare_error :
  connection_pools Example.middleware !! "ghost" = None /\
  ~ bare_tenant_error "ghost"
      (call_result (__call__ Example.middleware (Example.request_for "ghost") Example.p1)).
Proof.
  split; [reflexivity|].
  intros (e & Heq & _). vm_compute in Heq. discriminate Heq.
Qed.

(** C5 on a configuration of one reachable tenant: the one thing
    [__init__] asks of the database layer is [psycopg2.connect] with the
    positional arguments 1 and 20 before the keyword arguments, and what it
    stores is the object that this call returned. *)
Example init_calls_plain_connect :
  __init__ Example.psycopg2_connect Example.ONE_TENANT Example.view Example.p0 =
  ({| get_response := Example.view;
      connection_pools := {["tenant1" := 0]};
      lock := Lock_unlocked |},
   {| world :=
        [Example.Connect [VInt 1; VInt 20]
           [("database", VStr "db1"); ("user", VStr "app"); ("password", VStr "secret");
            ("host", VStr "localhost"); ("port", VInt 5432)]];
      stdout := [] |}).
Proof. vm_compute. reflexivity. Qed.

(** C6 on the example: the entry of tenant1 is the connection its
    construction returned, also after a request was served. *)
Lemma mapping_fully_constructed_witness :
  NoDup Example.TENANT_DATABASES.*1 /\
  init_outcome Example.psycopg2_connect Example.TENANT_DATABASES Example.view Example.p0
    "tenant1" = Some (inr 0) /\
  fully_constructed Example.psycopg2_connect Example.TENANT_DATABASES Example.view Example.p0
    (call_self (__call__ Example.middleware (Example.request_for "tenant1") Example.p1)).
Proof.
  split; [exact example_keys_NoDup|].
  destruct (mapping_fully_constructed Example.psycopg2_connect Example.TENANT_DATABASES
              Example.view Example.p0 example_keys_NoDup) as [Hinit Hcall].
  split.
  - exact (Hinit "tenant1" 0 eq_refl).
  - exact (Hcall Example.middleware (Example.request_for "tenant1") Example.p1 Hinit).
Defined.

(** C9 on the example: the request for "ghost" comes back untouched. *)
Lemma call_absent_no_effect_witness :
  connection_pools Example.middleware
    !! default "tenant1" (headers (Example.request_for "ghost") !! "x-org") = None /\
  __call__ Example.middleware (Example.request_for "ghost") Example.p1 =
    (inr invalid_tenant, Example.middleware, Example.request_for "ghost", Example.p1).
Proof.
  split; [reflexivity|].
  exact (proj1 (call_absent_no_effect Example.middleware (Example.request_for "ghost")
                  Example.p1 eq_refl)).
Defined.

(** C10 on the example: after two requests, one served and one rejected,
    the mapping is the one [__init__] built. *)
Lemma mapping_fixed_after_init_witness :
  let self1 :=
    call_self (__call__ Example.middleware (Example.request_for "tenant1") Example.p1) in
  let self2 := call_self (__call__ self1 (Example.request_for "ghost") Example.p0) in
  serving Example.middleware self2 /\
  connection_pools self2 = connection_pools Example.middleware.
Proof.
  intros self1 self2.
  assert (Hserving : serving Example.middleware self2).
  { apply serving_call. apply serving_call. apply serving_start. }
  split; [exact Hserving|].
  exact (proj2 (mapping_fixed_after_init Example.psycopg2_connect Example.TENANT_DATABASES
                  Example.view Example.p0 self2 Hserving)).
Defined.

(** C7 on the example: the view receives the process state of the entry,
    so the one event the served request adds to the world is the query of
    the view itself. *)
Example call_only_locates_example :
  world (call_proc (__call__ Example.middleware (Example.request_for "tenant1") Example.p1))
  = world Example.p1 ++ [Example.Query 0] /\
  call_proc (__call__ Example.middleware (Example.request_for "tenant2") Example.p1)
  = Example.p1.
Proof. split; vm_compute; reflexivity. Qed.

(** * Further properties of the code *)

Section MoreFacts.

Context {World connection : Type}.

Variable psycopg2_connect :
  list pyval -> list (string * pyval) -> World -> raising connection * World.

Implicit Types (self : TenantMiddleware World connection) (p : Proc World).
Implicit Types (request : HttpRequest connection) (t : string) (h : connection).
Implicit Types (items : list (string * gmap string pyval)).
Implicit Types (db_config : gmap string pyval).

(** ** Reading a tenant's configuration *)

(** When the keyword arguments cannot be built, the iteration ends in the
    [except] clause without a call to [psycopg2.connect]. *)
Lemma init_iteration_no_kwargs self p tenant db_config e :
  connect_kwargs db_config = inl e ->
  init_iteration psycopg2_connect (self, p) (tenant, db_config) = (self, print e p).
Proof.
  intros Hkwargs. unfold init_iteration, try_connect. rewrite Hkwargs.
  by destruct p.
Qed.

(** X1. The keyword arguments are built exactly for a configuration that
    has all of "NAME", "USER", "PASSWORD", "HOST" and "PORT", and they
    are then its "NAME" as [database] and the other four under their
    lower-case names, in this order. *)
Theorem connect_kwargs_returns db_config kwargs :
  connect_kwargs db_config = inr kwargs <->
  exists name user password host port,
    db_config !! "NAME" = Some name /\
    db_config !! "USER" = Some user /\
    db_config !! "PASSWORD" = Some password /\
    db_config !! "HOST" = Some host /\
    db_config !! "PORT" = Some port /\
    kwargs = [("database", name); ("user", user); ("password", password);
              ("host", host); ("port", port)].
Proof.
  unfold connect_kwargs, getitem. split.
  - destruct (db_config !! "NAME") as [name|]; [|done].
    destruct (db_config !! "USER") as [user|]; [|done].
    destruct (db_config !! "PASSWORD") as [password|]; [|done].
    destruct (db_config !! "HOST") as [host|]; [|done].
    destruct (db_config !! "PORT") as [port|]; [|done].
    cbn [bind_raising]. intros [= <-].
    by exists name, user, password, host, port.
  - intros (name & user & password & host & port & -> & -> & -> & -> & -> & ->).
    done.
Qed.

(** X2. A configuration that lacks one of the five keys, the keys before
    it being there, raises the [KeyError] of that key, and the tenant is
    skipped without the database layer being asked anything: whatever
    [psycopg2.connect] is, the iteration leaves the middleware and the
    world as they were and prints the [KeyError]. *)
Theorem missing_key_skips_tenant self p tenant db_config present k rest :
  config_keys = present ++ k :: rest ->
  (forall k', k' ∈ present -> is_Some (db_config !! k')) ->
  db_config !! k = None ->
  connect_kwargs db_config = inl (KeyError k) /\
  init_iteration psycopg2_connect (self, p) (tenant, db_config) =
    (self, print (KeyError k) p).
Proof.
  intros Hkeys Hpresent Hk.
  assert (Hkwargs : connect_kwargs db_config = inl (KeyError k)).
  { unfold config_keys in Hkeys. unfold connect_kwargs, getitem.
    destruct present as [|k1 [|k2 [|k3 [|k4 [|k5 present]]]]];
      simplify_eq/=.
    - by rewrite Hk.
    - destruct (Hpresent "NAME") as [v1 ->]; [set_solver|].
      by rewrite Hk.
    - destruct (Hpresent "NAME") as [v1 ->]; [set_solver|].
      destruct (Hpresent "USER") as [v2 ->]; [set_solver|].
      by rewrite Hk.
    - destruct (Hpresent "NAME") as [v1 ->]; [set_solver|].
      destruct (Hpresent "USER") as [v2 ->]; [set_solver|].
      destruct (Hpresent "PASSWORD") as [v3 ->]; [set_solver|].
      by rewrite Hk.
    - destruct (Hpresent "NAME") as [v1 ->]; [set_solver|].
      destruct (Hpresent "USER") as [v2 ->]; [set_solver|].
      destruct (Hpresent "PASSWORD") as [v3 ->]; [set_solver|].
      destruct (Hpresent "HOST") as [v4 ->]; [set_solver|].
      by rewrite Hk.
    - by destruct present. }
  split; [done|]. by apply init_iteration_no_kwargs.
Qed.

(** X3. Nothing else of a configuration is read: two configurations that
    agree on the five keys lead to the same construction, with the same
    result and the same effect on the world. *)
Theorem try_connect_reads_config_keys db_config1 db_config2 w :
  (forall k, k ∈ config_keys -> db_config1 !! k = db_config2 !! k) ->
  try_connect psycopg2_connect db_config1 w = try_connect psycopg2_connect db_config2 w.
Proof.
  intros Hagree. unfold try_connect, connect_kwargs, getitem.
  rewrite (Hagree "NAME"), (Hagree "USER"), (Hagree "PASSWORD"),
    (Hagree "HOST"), (Hagree "PORT"); [done|unfold config_keys; set_solver..].
Qed.

(** ** The loop as a whole *)

Lemma init_iteration_monotone item self p t :
  is_Some (connection_pools self !! t) ->
  is_Some (connection_pools (init_iteration psycopg2_connect (self, p) item).1 !! t).
Proof.
  destruct item as [k db_config]. cbn [init_iteration]. intros Hsome.
  destruct (try_connect _ _ _) as [[e|c] w]; cbn [fst]; [done|].
  cbn [set_connection_pools connection_pools].
  rewrite lookup_insert. by case_decide.
Qed.

Lemma init_iteration_stdout item self p :
  stdout p `prefix_of` stdout (init_iteration psycopg2_connect (self, p) item).2.
Proof.
  destruct item as [k db_config]. cbn [init_iteration].
  destruct (try_connect _ _ _) as [[e|c] w]; cbn [snd]; [|done].
  by apply prefix_app_r.
Qed.

(** One iteration on a tenant that is not in the mapping: either one more
    entry or one more printed exception. *)
Lemma init_iteration_count item self p :
  connection_pools self !! item.1 = None ->
  size (connection_pools (init_iteration psycopg2_connect (self, p) item).1)
  + length (stdout (init_iteration psycopg2_connect (self, p) item).2)
  = S (size (connection_pools self) + length (stdout p)).
Proof.
  destruct item as [k db_config]. cbn [init_iteration fst]. intros Hfresh.
  destruct (try_connect _ _ _) as [[e|c] w]; cbn [fst snd].
  - unfold print, set_world. cbn [stdout]. rewrite length_app. cbn [length]. lia.
  - unfold set_connection_pools, set_world. cbn [connection_pools stdout].
    rewrite map_size_insert_None by done. lia.
Qed.

Lemma initialize_pools_count items : forall self p,
  NoDup items.*1 ->
  (forall t, t ∈ items.*1 -> connection_pools self !! t = None) ->
  size (connection_pools (_initialize_pools psycopg2_connect items self p).1)
  + length (stdout (_initialize_pools psycopg2_connect items self p).2)
  = size (connection_pools self) + length (stdout p) + length items.
Proof.
  induction items as [|item items IH]; intros self p Hnd Hfresh.
  - cbn. lia.
  - rewrite fmap_cons in Hnd, Hfresh. apply NoDup_cons in Hnd as [Hitem Hnd].
    rewrite initialize_pools_cons. rewrite IH.
    + rewrite init_iteration_count by (apply Hfresh; by left). cbn [length]. lia.
    + done.
    + intros t Ht. rewrite init_iteration_other.
      * apply Hfresh. by right.
      * intros Heq. apply Hitem. by rewrite Heq.
Qed.

Lemma initialize_pools_monotone items : forall self p t,
  is_Some (connection_pools self !! t) ->
  is_Some (connection_pools (_initialize_pools psycopg2_connect items self p).1 !! t).
Proof.
  induction items as [|item items IH]; intros self p t Hsome; [done|].
  rewrite initialize_pools_cons. apply IH. by apply init_iteration_monotone.
Qed.

Lemma initialize_pools_stdout items : forall self p,
  stdout p `prefix_of` stdout (_initialize_pools psycopg2_connect items self p).2.
Proof.
  induction items as [|item items IH]; intros self p; [done|].
  rewrite initialize_pools_cons.
  etrans; [apply (init_iteration_stdout item self p)|apply IH].
Qed.

(** While requests are served the middleware object stays the same. *)
Lemma serving_same (self0 self : TenantMiddleware World connection) :
  serving self0 self -> self = self0.
Proof.
  induction 1 as [|self request p _ ->]; [done|]. apply call_self_unchanged.
Qed.

(** X4. When no construction returns a connection (in particular for an
    empty configuration) [__init__] still completes, with an empty
    mapping, and the middleware then answers every request, whatever its
    header, with "Invalid tenant" and never calls the handler. *)
Theorem no_connection_rejects_all TENANT_DATABASES get_response p0 :
  NoDup TENANT_DATABASES.*1 ->
  (forall t h,
     init_outcome psycopg2_connect TENANT_DATABASES get_response p0 t <> Some (inr h)) ->
  let self := (__init__ psycopg2_connect TENANT_DATABASES get_response p0).1 in
  connection_pools self = ∅ /\
  (forall request p, __call__ self request p = (inr invalid_tenant, self, request, p)).
Proof.
  intros Hnd Hnone self.
  assert (Hempty : connection_pools self = ∅).
  { apply map_eq. intros t. unfold self. rewrite init_lookup by done.
    rewrite lookup_empty.
    destruct (init_outcome _ _ _ _ _) as [[e|h]|] eqn:Houtcome; [done| |done].
    by destruct (Hnone t h). }
  split; [done|].
  intros request p. apply call_absent. by rewrite Hempty, lookup_empty.
Qed.

(** X5. [__init__] accounts for every tenant of the configuration once:
    the number of entries of the mapping and the number of exceptions it
    printed add up to the number of tenants. *)
Theorem init_stores_or_prints TENANT_DATABASES get_response p0 :
  NoDup TENANT_DATABASES.*1 ->
  let st := __init__ psycopg2_connect TENANT_DATABASES get_response p0 in
  size (connection_pools st.1) + length (stdout st.2)
  = length TENANT_DATABASES + length (stdout p0).
Proof.
  intros Hnd st. unfold st, __init__.
  rewrite initialize_pools_count; [|done|by intros t _].
  cbn [init_attributes connection_pools]. rewrite map_size_empty. lia.
Qed.

(** X6. What a run of [_initialize_pools] over the items of a dict does
    to a middleware that may already have entries: the handler and the
    lock stay; the entry of a tenant whose construction returns is that
    connection; the entry of a tenant whose construction raises, like
    that of a tenant that is not a key of the configuration, is exactly
    what it was before the run, so a connection it had is kept and no
    other is put in its place; no entry is removed; and what was printed
    before stays in front of what is printed. *)
Theorem initialize_pools_keeps items self p :
  NoDup items.*1 ->
  let st := _initialize_pools psycopg2_connect items self p in
  get_response st.1 = get_response self /\
  lock st.1 = lock self /\
  (forall t c, construction_outcome psycopg2_connect items self p t = Some (inr c) ->
     connection_pools st.1 !! t = Some c) /\
  (forall t e, construction_outcome psycopg2_connect items self p t = Some (inl e) ->
     connection_pools st.1 !! t = connection_pools self !! t) /\
  (forall t, t ∉ items.*1 -> connection_pools st.1 !! t = connection_pools self !! t) /\
  (forall t, is_Some (connection_pools self !! t) -> is_Some (connection_pools st.1 !! t)) /\
  stdout p `prefix_of` stdout st.2.
Proof.
  intros Hnd st. unfold st.
  destruct (initialize_pools_frame psycopg2_connect items self p) as [Hhandler Hlock].
  split; [done|]. split; [done|]. split; [|split; [|split; [|split]]].
  - intros t c Houtcome.
    rewrite (initialize_pools_lookup psycopg2_connect items self p t Hnd).
    by rewrite Houtcome.
  - intros t e Houtcome.
    rewrite (initialize_pools_lookup psycopg2_connect items self p t Hnd).
    by rewrite Houtcome.
  - intros t Ht. by apply initialize_pools_lookup_notin.
  - intros t Ht. by apply initialize_pools_monotone.
  - apply initialize_pools_stdout.
Qed.

(** X7. The lock that [__init__] creates is never acquired: after
    [__init__] and however many calls of [__call__], it is as
    [threading.Lock()] returned it. *)
Theorem lock_never_acquired TENANT_DATABASES get_response p0 self :
  serving (__init__ psycopg2_connect TENANT_DATABASES get_response p0).1 self ->
  lock self = threading_Lock.
Proof.
  intros ->%serving_same. unfold __init__.
  by destruct (initialize_pools_frame psycopg2_connect TENANT_DATABASES
                 (init_attributes get_response) p0) as [_ ->].
Qed.

(** ** The call *)

(** X8. [__call__] raises nothing of its own: the subscript
    [self.connection_pools[tenant_id]] comes after the membership test and
    cannot fail, so an exception that leaves [__call__] is one that the
    handler raised, on the request with its tenant's connection attached. *)
Theorem call_raises_only_from_handler self request p e :
  call_result (__call__ self request p) = inl e ->
  exists h,
    connection_pools self !! default "tenant1" (headers request !! "x-org") = Some h /\
    (get_response self
       (attach request (default "tenant1" (headers request !! "x-org")) h) p).1.1
    = inl e.
Proof.
  destruct (connection_pools self !! default "tenant1" (headers request !! "x-org"))
    as [h|] eqn:Hlookup.
  - rewrite (call_present _ _ _ h) by done. unfold handed_over, call_result.
    intros Hraise. exists h. split; [done|].
    by destruct (get_response self _ p) as [[r request'] p'].
  - by rewrite call_absent.
Qed.

(** X9. When the tenant a request resolves to is in the mapping, the
    handler is called on the request with [tenant_id] set to that tenant
    and [db_pool] to its connection, whatever these two attributes were
    on the incoming request: they are overwritten, so two requests that
    differ in nothing but these two attributes are served alike. *)
Theorem call_attributes_from_header self request p h :
  connection_pools self !! default "tenant1" (headers request !! "x-org") = Some h ->
  __call__ self request p =
    (let '(r, request', p') :=
       get_response self
         {| headers := headers request; method := method request;
            path := path request; body := body request; other := other request;
            tenant_id := Some (default "tenant1" (headers request !! "x-org"));
            db_pool := Some h |} p in
     (r, self, request', p')) /\
  (forall request',
     headers request' = headers request ->
     method request' = method request ->
     path request' = path request ->
     body request' = body request ->
     other request' = other request ->
     __call__ self request' p = __call__ self request p).
Proof.
  intros Hlookup. split.
  - by rewrite (call_present _ _ _ h).
  - intros request' Hheaders Hmethod Hpath Hbody Hother.
    rewrite (call_present _ request' _ h) by (by rewrite Hheaders).
    rewrite (call_present _ request _ h) by done.
    unfold attach. by rewrite Hheaders, Hmethod, Hpath, Hbody, Hother.
Qed.

(** X10. What [__init__] decided for a tenant stays decided while
    requests are served, the construction is not tried again: on every
    later request that names a tenant whose construction raised (or that
    has no configuration), the tenant is not in the mapping and the
    request gets the response [{'error': 'Invalid tenant'}]; on every
    later request that names a tenant whose construction returned [h],
    [h] is still the entry of the tenant and the handler given to
    [__init__] is called on the request with [db_pool] set to [h]. *)
Theorem init_outcome_is_final TENANT_DATABASES get_response p0 t self :
  NoDup TENANT_DATABASES.*1 ->
  serving (__init__ psycopg2_connect TENANT_DATABASES get_response p0).1 self ->
  match init_outcome psycopg2_connect TENANT_DATABASES get_response p0 t with
  | Some (inr h) =>
      connection_pools self !! t = Some h /\
      (forall request p, headers request !! "x-org" = Some t ->
         __call__ self request p =
         (let '(r, request', p') :=
            get_response
              {| headers := headers request; method := method request;
                 path := path request; body := body request; other := other request;
                 tenant_id := Some t; db_pool := Some h |} p in
          (r, self, request', p')))
  | Some (inl _) | None =>
      connection_pools self !! t = None /\
      (forall request p, headers request !! "x-org" = Some t ->
         __call__ self request p =
         (inr (JsonResponse [("error", "Invalid tenant")]), self, request, p))
  end.
Proof.
  intros Hnd ->%serving_same.
  pose proof (init_lookup psycopg2_connect TENANT_DATABASES get_response p0 t Hnd)
    as Hlookup.
  destruct (initialize_pools_frame psycopg2_connect TENANT_DATABASES
              (init_attributes get_response) p0) as [Hhandler _].
  destruct (init_outcome _ _ _ _ _) as [[e|h]|]; split; try done.
  - by apply lookup_rejects.
  - intros request p Hheader.
    rewrite (lookup_resolves _ t h Hlookup request p Hheader).
    unfold handed_over, attach. unfold __init__ at 1. by rewrite Hhandler.
  - by apply lookup_rejects.
Qed.

End MoreFacts.

(** ** The further properties on the concrete world *)

(** X1 on the example: the configuration of tenant1 gives its five
    keyword arguments. *)
Lemma connect_kwargs_returns_witness :
  connect_kwargs (Example.db_config "db1" "localhost") =
  inr [("database", VStr "db1"); ("user", VStr "app"); ("password", VStr "secret");
       ("host", VStr "localhost"); ("port", VInt 5432)].
Proof.
  apply (proj2 (connect_kwargs_returns (Example.db_config "db1" "localhost") _)).
  exists (VStr "db1"), (VStr "app"), (VStr "secret"), (VStr "localhost"), (VInt 5432).
  repeat split; reflexivity.
Defined.

(** X2 on the example: the configuration of tenant3 has no "HOST". *)
Lemma missing_key_skips_tenant_witness :
  config_keys = ["NAME"; "USER"; "PASSWORD"] ++ "HOST" :: ["PORT"] /\
  delete "HOST" (Example.db_config "db3" "localhost") !! "HOST" = None /\
  init_iteration Example.psycopg2_connect (Example.middleware, Example.p1)
    ("tenant3", delete "HOST" (Example.db_config "db3" "localhost")) =
  (Example.middleware, print (KeyError "HOST") Example.p1).
Proof.
  split; [reflexivity|]. split; [reflexivity|].
  refine (proj2 (missing_key_skips_tenant Example.psycopg2_connect
                   Example.middleware Example.p1 "tenant3"
                   (delete "HOST" (Example.db_config "db3" "localhost"))
                   ["NAME"; "USER"; "PASSWORD"] "HOST" ["PORT"] eq_refl _ eq_refl)).
  intros k' Hk'.
  apply elem_of_cons in Hk' as [->|Hk']; [by eexists|].
  apply elem_of_cons in Hk' as [->|Hk']; [by eexists|].
  apply elem_of_cons in Hk' as [->|Hk']; [by eexists|].
  by apply elem_of_nil in Hk'.
Defined.

(** X3 on the example: "ENGINE" and "CONN_MAX_AGE" make no difference. *)
Lemma try_connect_reads_config_keys_witness :
  try_connect Example.psycopg2_connect Example2.db_config_with_options [] =
  try_connect Example.psycopg2_connect (Example.db_config "db1" "localhost") [].
Proof.
  apply (try_connect_reads_config_keys Example.psycopg2_connect).
  intros k Hk. unfold config_keys in Hk.
  apply elem_of_cons in Hk as [->|Hk]; [reflexivity|].
  apply elem_of_cons in Hk as [->|Hk]; [reflexivity|].
  apply elem_of_cons in Hk as [->|Hk]; [reflexivity|].
  apply elem_of_cons in Hk as [->|Hk]; [reflexivity|].
  apply elem_of_cons in Hk as [->|Hk]; [reflexivity|].
  by apply elem_of_nil in Hk.
Defined.

Lemma all_failing_keys_NoDup : NoDup Example2.ALL_FAILING.*1.
Proof. apply (bool_decide_unpack _). vm_compute. exact I. Defined.

Lemma all_failing_no_connection t (h : Example.connection) :
  init_outcome Example.psycopg2_connect Example2.ALL_FAILING Example.view Example.p0 t
  <> Some (inr h).
Proof.
  unfold init_outcome, Example2.ALL_FAILING. cbn [construction_outcome fst snd].
  destruct (decide ("tenant2" = t)) as [_|_]; [by vm_compute|].
  destruct (decide ("tenant3" = t)) as [_|_]; [by vm_compute|].
  done.
Defined.

(** X4 on the example: with tenant2 unreachable and tenant3 incomplete,
    also the request for tenant2 and the request without header are
    rejected. *)
Lemma no_connection_rejects_all_witness :
  NoDup Example2.ALL_FAILING.*1 /\
  (let self :=
     (__init__ Example.psycopg2_connect Example2.ALL_FAILING Example.view Example.p0).1 in
   connection_pools self = ∅ /\
   __call__ self (Example.request_for "tenant2") Example.p0 =
     (inr invalid_tenant, self, Example.request_for "tenant2", Example.p0) /\
   __call__ self Example.request_plain Example.p0 =
     (inr invalid_tenant, self, Example.request_plain, Example.p0)).
Proof.
  split; [exact all_failing_keys_NoDup|].
  destruct (no_connection_rejects_all Example.psycopg2_connect Example2.ALL_FAILING
              Example.view Example.p0 all_failing_keys_NoDup all_failing_no_connection)
    as [Hempty Hrejects].
  split; [exact Hempty|]. split; apply Hrejects.
Defined.

(** X5 on the example: one entry and two printed exceptions for three
    tenants. *)
Lemma init_stores_or_prints_witness :
  NoDup Example.TENANT_DATABASES.*1 /\
  size (connection_pools Example.middleware) + length (stdout Example.p1) = 3 + 0.
Proof.
  split; [exact example_keys_NoDup|].
  exact (init_stores_or_prints Example.psycopg2_connect Example.TENANT_DATABASES
           Example.view Example.p0 example_keys_NoDup).
Defined.

Lemma second_run_keys_NoDup : NoDup Example2.SECOND_RUN.*1.
Proof. apply (bool_decide_unpack _). vm_compute. exact I. Defined.

(** X6 on the example: in a second run of the loop tenant1, which has
    connection 0, is unreachable and tenant2 is reachable: tenant1 keeps
    connection 0, tenant2 gets the connection of this run, and what was
    printed so far stays. *)
Lemma initialize_pools_keeps_witness :
  let st := _initialize_pools Example.psycopg2_connect Example2.SECOND_RUN
              Example.middleware Example.p1 in
  NoDup Example2.SECOND_RUN.*1 /\
  connection_pools Example.middleware !! "tenant1" = Some 0 /\
  construction_outcome Example.psycopg2_connect Example2.SECOND_RUN
    Example.middleware Example.p1 "tenant1"
  = Some (inl (Raised "OperationalError" "could not connect to server")) /\
  connection_pools st.1 !! "tenant1" = Some 0 /\
  connection_pools st.1 !! "tenant2" = Some 3 /\
  stdout Example.p1 `prefix_of` stdout st.2.
Proof.
  intros st.
  destruct (initialize_pools_keeps Example.psycopg2_connect Example2.SECOND_RUN
              Example.middleware Example.p1 second_run_keys_NoDup)
    as (_ & _ & Hreturned & Hraised & _ & _ & Hprinted).
  split; [exact second_run_keys_NoDup|]. split; [reflexivity|].
  split; [reflexivity|]. split; [|split].
  - exact (Hraised "tenant1" (Raised "OperationalError" "could not connect to server")
             eq_refl).
  - exact (Hreturned "tenant2" 3 eq_refl).
  - exact Hprinted.
Defined.

(** X7 on the example: the lock after a served request. *)
Lemma lock_never_acquired_witness :
  let self :=
    call_self (__call__ Example.middleware (Example.request_for "tenant1") Example.p1) in
  serving Example.middleware self /\ lock self = Lock_unlocked.
Proof.
  intros self.
  assert (Hserving : serving Example.middleware self).
  { apply serving_call. apply serving_start. }
  split; [exact Hserving|].
  exact (lock_never_acquired Example.psycopg2_connect Example.TENANT_DATABASES
           Example.view Example.p0 self Hserving).
Defined.

(** X8 on the example: the [ValueError] that leaves [__call__] is the one
    of the view, raised on the request with connection 0 attached. *)
Lemma call_raises_only_from_handler_witness :
  call_result (__call__ Example2.broken_middleware (Example.request_for "tenant1")
                 Example.p1)
  = inl (Raised "ValueError" "view failed") /\
  exists h,
    connection_pools Example2.broken_middleware !! "tenant1" = Some h /\
    (Example2.broken_view (attach (Example.request_for "tenant1") "tenant1" h)
       Example.p1).1.1
    = inl (Raised "ValueError" "view failed").
Proof.
  split; [reflexivity|].
  exact (call_raises_only_from_handler Example2.broken_middleware
           (Example.request_for "tenant1") Example.p1
           (Raised "ValueError" "view failed") eq_refl).
Defined.

(** X9 on the example: the attributes that the request brought along
    ("tenant2", connection 7) do not reach the view, which gets "tenant1"
    and connection 0. *)
Lemma call_attributes_from_header_witness :
  connection_pools Example.middleware
    !! default "tenant1" (headers Example2.request_spoofed !! "x-org") = Some 0 /\
  __call__ Example.middleware Example2.request_spoofed Example.p1 =
    (inr (Response 200 "tenant1"), Example.middleware,
     {| headers := {["x-org" := "tenant1"]}; method := "GET"; path := "/orders";
        body := ""; other := ∅; tenant_id := Some "tenant1"; db_pool := Some 0 |},
     set_world (world Example.p1 ++ [Example.Query 0]) Example.p1) /\
  __call__ Example.middleware (Example.request_for "tenant1") Example.p1 =
  __call__ Example.middleware Example2.request_spoofed Example.p1.
Proof.
  split; [reflexivity|]. split.
  - exact (proj1 (call_attributes_from_header Example.middleware
                    Example2.request_spoofed Example.p1 0 eq_refl)).
  - exact (proj2 (call_attributes_from_header Example.middleware
                    Example2.request_spoofed Example.p1 0 eq_refl)
             (Example.request_for "tenant1") eq_refl eq_refl eq_refl eq_refl eq_refl).
Defined.

(** X10 on the example: after a request was served, the request for
    tenant2 still gets the JSON body and the request for tenant1 still
    reaches the view with connection 0. *)
Lemma init_outcome_is_final_witness :
  let self :=
    call_self (__call__ Example.middleware (Example.request_for "tenant1") Example.p1) in
  NoDup Example.TENANT_DATABASES.*1 /\
  serving Example.middleware self /\
  (connection_pools self !! "tenant2" = None /\
   __call__ self (Example.request_for "tenant2") Example.p1 =
     (inr (JsonResponse [("error", "Invalid tenant")]), self,
      Example.request_for "tenant2", Example.p1)) /\
  (connection_pools self !! "tenant1" = Some 0 /\
   __call__ self (Example.request_for "tenant1") Example.p1 =
     (inr (Response 200 "tenant1"), self,
      {| headers := {["x-org" := "tenant1"]}; method := "GET"; path := "/orders";
         body := ""; other := ∅; tenant_id := Some "tenant1"; db_pool := Some 0 |},
      set_world (world Example.p1 ++ [Example.Query 0]) Example.p1)).
Proof.
  intros self.
  assert (Hserving : serving Example.middleware self).
  { apply serving_call. apply serving_start. }
  split; [exact example_keys_NoDup|]. split; [exact Hserving|]. split; split.
  - exact (proj1 (init_outcome_is_final Example.psycopg2_connect Example.TENANT_DATABASES
                    Example.view Example.p0 "tenant2" self example_keys_NoDup Hserving)).
  - exact (proj2 (init_outcome_is_final Example.psycopg2_connect Example.TENANT_DATABASES
                    Example.view Example.p0 "tenant2" self example_keys_NoDup Hserving)
             (Example.request_for "tenant2") Example.p1 eq_refl).
  - exact (proj1 (init_outcome_is_final Example.psycopg2_connect Example.TENANT_DATABASES
                    Example.view Example.p0 "tenant1" self example_keys_NoDup Hserving)).
  - exact (proj2 (init_outcome_is_final Example.psycopg2_connect Example.TENANT_DATABASES
                    Example.view Example.p0 "tenant1" self example_keys_NoDup Hserving)
             (Example.request_for "tenant1") Example.p1 eq_refl).
Defined.
